(** * alfresco/lists/KeyboardNavigationSuppressionMixin

    A shallow embedding of the keyboard-navigation suppression mixin and the
    properties of its seven handlers.

    The mixin is a Dojo [declare]d class.  Its handlers read members of
    [this], read properties of the event they are given, assign one field
    ([suppressKeyNavigation]) and call into collaborators that live outside
    the mixin: [event.stop] (dojo/_base/event), [on.emit] (dojo/on),
    [this.inherited] (the dijit/_KeyNavContainer handler that the mixin
    overrides) and the optional hooks [onEditClick], [onCancel], [onSave].

    Handlers are embedded as computations in a small monad that threads the
    widget, may throw a [TypeError], and records every call to a collaborator,
    in program order, as an [action].  Collaborators are recorded, not
    interpreted: what they do once called is outside the mixin.

    The last part covers [setupServer] of
    aikauTesting/mockservices/MultiSelectInputMockXhr, whose [try]/[catch]
    does depend on what its collaborators do: there they are given as a
    [behaviour]. *)

From Stdlib Require Import ZArith.
From stdpp Require Import gmap strings list fin_maps.

Local Open Scope Z_scope.

(** ** JavaScript values *)

Module JS.

(** The values a handler can be handed.  Numbers are the integer codes that
    keyboard events carry, plus [NaN], the one number that is not strictly
    equal to itself.  An object is a reference [ref] (its identity), whether
    it is callable, and its own data properties. *)
#[warnings="-register-all"] Inductive value : Type :=
| VUndefined
| VNull
| VBool (b : bool)
| VNum (n : Z)
| VNaN
| VStr (s : string)
| VObj (ref : positive) (callable : bool) (props : gmap string value).

Inductive exn : Type :=
| TypeError.

(** [typeof v] *)
Definition typeof (v : value) : string :=
  match v with
  | VUndefined => "undefined"
  | VNull => "object"
  | VBool _ => "boolean"
  | VNum _ | VNaN => "number"
  | VStr _ => "string"
  | VObj _ callable _ => if callable then "function" else "object"
  end.

(** ToBoolean, as used by [&&] and [||]. *)
Definition truthy (v : value) : bool :=
  match v with
  | VUndefined | VNull | VNaN => false
  | VBool b => b
  | VNum n => negb (n =? 0)
  | VStr s => negb (String.eqb s "")
  | VObj _ _ _ => true
  end.

(** [a === b]: no coercion; objects are compared by reference. *)
Definition strict_eq (a b : value) : bool :=
  match a, b with
  | VUndefined, VUndefined => true
  | VNull, VNull => true
  | VBool x, VBool y => Bool.eqb x y
  | VNum x, VNum y => x =? y
  | VStr x, VStr y => String.eqb x y
  | VObj r _ _, VObj r' _ _ => Pos.eqb r r'
  | _, _ => false
  end.

(** [v.k]: a [TypeError] on [undefined] and [null]; the own property of an
    object, [undefined] when it has none; [undefined] on the other
    primitives, which have no property of the names read here. *)
Definition get (v : value) (k : string) : exn + value :=
  match v with
  | VUndefined | VNull => inl TypeError
  | VObj _ _ props => inr (default VUndefined (props !! k))
  | _ => inr VUndefined
  end.

Definition is_boolean (v : value) : bool :=
  match v with
  | VBool _ => true
  | _ => false
  end.

Definition is_object (v : value) : bool :=
  match v with
  | VObj _ _ _ => true
  | _ => false
  end.

Definition nullish (v : value) : bool :=
  match v with
  | VUndefined | VNull => true
  | _ => false
  end.

End JS.
Import JS.

(** ** The widget and the collaborators *)

(** The members of [this] that the mixin reads or writes.  Only
    [suppressKeyNavigation] is declared by the mixin; the hooks and [domNode]
    belong to the widget the mixin is mixed into and are [VUndefined] when
    that widget has none. *)
Record widget : Type := Widget {
  suppressKeyNavigation : value;
  onEditClick : value;
  onCancel : value;
  onSave : value;
  domNode : value
}.

(** The constants of dojo/keys that the mixin's factory function receives as
    its [keys] argument. *)
Record dojo_keys : Type := Keys {
  ESCAPE : Z;
  ENTER : Z
}.

(** A call that leaves the mixin. *)
Inductive action : Type :=
| EventStop (evt : value)
    (* event.stop(evt) *)
| OnEmit (target : value) (type : string) (init : gmap string value)
    (* on.emit(target, type, {...}) *)
| CallHook (name : string)
    (* this.<name>() *)
| Inherited (name : string) (args : list value).
    (* this.inherited(arguments), from the method <name> *)

(** ** The handler monad *)

Record outcome (A : Type) : Type := Outcome {
  result : exn + A;
  final : widget;
  trace : list action
}.
Arguments Outcome {A} _ _ _.
Arguments result {A} _.
Arguments final {A} _.
Arguments trace {A} _.

Definition M (A : Type) : Type := widget → outcome A.

Definition ret {A} (a : A) : M A :=
  λ w, Outcome (inr a) w [].

Definition throw {A} (e : exn) : M A :=
  λ w, Outcome (inl e) w [].

Definition bind {A B} (m : M A) (f : A → M B) : M B :=
  λ w,
    let o := m w in
    match result o with
    | inl e => Outcome (inl e) (final o) (trace o)
    | inr a =>
        let o' := f a (final o) in
        Outcome (result o') (final o') (trace o ++ trace o')
    end.

Notation "'let*' x ':=' m 'in' k" := (bind m (λ x, k))
  (at level 10, x name, m at level 100, k at level 200).
Notation "m ';;' k" := (bind m (λ _, k))
  (at level 100, k at level 200, right associativity).

(** Reading a member of [this], assigning [this.suppressKeyNavigation],
    calling out. *)
Definition this {A} (member : widget → A) : M A :=
  λ w, Outcome (inr (member w)) w [].

Definition with_suppressKeyNavigation (v : value) (w : widget) : widget :=
  Widget v (onEditClick w) (onCancel w) (onSave w) (domNode w).

Definition assign_suppressKeyNavigation (v : value) : M unit :=
  λ w, Outcome (inr ()) (with_suppressKeyNavigation v w) [].

Definition perform (a : action) : M unit :=
  λ w, Outcome (inr ()) w [a].

(** [v.k] as a computation. *)
Definition prop (v : value) (k : string) : M value :=
  match get v k with
  | inl e => throw e
  | inr x => ret x
  end.

(** Short-circuit [a && b] and [a || b] on conditions. *)
Definition and_also (a b : M bool) : M bool :=
  let* x := a in if x then b else ret false.

Definition or_else (a b : M bool) : M bool :=
  let* x := a in if x then ret true else b.

(** The expression statement [v && m]. *)
Definition guarded (v : value) (m : M unit) : M unit :=
  if truthy v then m else ret ().

(** ** The mixin *)

Section Mixin.

Variable keys : dojo_keys.

(** The prototype's value of [suppressKeyNavigation], which a new instance
    reads until the first assignment. *)
Definition initial_suppressKeyNavigation : value := VBool false.

(** A freshly constructed widget: the mixin's prototype over the members
    that the host widget supplies. *)
Definition construct (edit cancel save node : value) : widget :=
  Widget initial_suppressKeyNavigation edit cancel save node.

Definition onKeyPress (evt : value) : M unit :=
  let* c :=
    and_also
      (let* v := prop evt "ctrlKey" in ret (strict_eq v (VBool true)))
      (let* v := prop evt "charCode" in ret (strict_eq v (VNum 101))) in
  if c then
    guarded evt (perform (EventStop evt));;
    let* f := this onEditClick in
    if String.eqb (typeof f) "function"
    then perform (CallHook "onEditClick")
    else ret ()
  else ret ().

Definition onValueEntryKeyPress (e : value) : M unit :=
  let* esc :=
    or_else
      (let* v := prop e "charOrCode" in
       ret (strict_eq v (VNum (ESCAPE keys))))
      (let* v := prop e "keyCode" in
       ret (strict_eq v (VNum (ESCAPE keys)))) in
  if esc then
    perform (EventStop e);;
    let* f := this onCancel in
    if String.eqb (typeof f) "function"
    then perform (CallHook "onCancel")
    else ret ()
  else
    let* ent :=
      or_else
        (let* v := prop e "charOrCode" in
         ret (strict_eq v (VNum (ENTER keys))))
        (let* v := prop e "keyCode" in
         ret (strict_eq v (VNum (ENTER keys)))) in
    if ent then
      perform (EventStop e);;
      let* f := this onSave in
      if String.eqb (typeof f) "function"
      then perform (CallHook "onSave")
      else ret ()
    else ret ().

Definition suppressContainerKeyboardNavigation (suppress node : value)
  : M unit :=
  let* target := (if truthy node then ret node else this domNode) in
  perform
    (OnEmit target "onSuppressKeyNavigation"
       {[ "bubbles" := VBool true;
          "cancelable" := VBool true;
          "suppress" := suppress ]}).

Definition suppressFocusRequest (evt : value) : M unit :=
  guarded evt (perform (EventStop evt)).

Definition onSuppressKeyNavigation (evt : value) : M unit :=
  let* v := prop evt "suppress" in
  assign_suppressKeyNavigation (VBool (strict_eq v (VBool true))).

Definition _onContainerKeypress (evt : value) : M unit :=
  let* s := this suppressKeyNavigation in
  if strict_eq s (VBool false)
  then perform (Inherited "_onContainerKeypress" [evt])
  else ret ().

Definition _onContainerKeydown (evt : value) : M unit :=
  let* s := this suppressKeyNavigation in
  if strict_eq s (VBool false)
  then perform (Inherited "_onContainerKeydown" [evt])
  else ret ().

End Mixin.

(** ** Operations and the event loop *)

(** One call of a handler of the mixin, with its arguments. *)
Inductive op : Type :=
| KeyPress (evt : value)
| ValueEntryKeyPress (e : value)
| SuppressContainerKeyboardNavigation (suppress node : value)
| SuppressFocusRequest (evt : value)
| OnSuppressKeyNavigation (evt : value)
| ContainerKeypress (evt : value)
| ContainerKeydown (evt : value).

Definition call (keys : dojo_keys) (o : op) : M unit :=
  match o with
  | KeyPress evt => onKeyPress evt
  | ValueEntryKeyPress e => onValueEntryKeyPress keys e
  | SuppressContainerKeyboardNavigation suppress node =>
      suppressContainerKeyboardNavigation suppress node
  | SuppressFocusRequest evt => suppressFocusRequest evt
  | OnSuppressKeyNavigation evt => onSuppressKeyNavigation evt
  | ContainerKeypress evt => _onContainerKeypress evt
  | ContainerKeydown evt => _onContainerKeydown evt
  end.

(** The browser's event loop delivers the calls one after the other.  Each
    handler runs to completion; a handler that throws ends there, and the
    next one starts from the widget as it was left. *)
Fixpoint run (keys : dojo_keys) (ops : list op) (w : widget)
  : widget * list action :=
  match ops with
  | [] => (w, [])
  | o :: ops' =>
      let r := call keys o w in
      let '(w', t) := run keys ops' (final r) in
      (w', trace r ++ t)
  end.

(** ** Vocabulary of the specification *)

(** A hook is registered when the member holds a function. *)
Definition registered (hook : value) : bool :=
  match hook with
  | VObj _ true _ => true
  | _ => false
  end.

(** The calls of a registered hook: one call, or none when it is absent. *)
Definition hook_call (name : string) (hook : value) : list action :=
  if registered hook then [CallHook name] else [].

(** The event has the number [n] as its property [k]. *)
Definition has_code (evt : value) (k : string) (n : Z) : bool :=
  match evt with
  | VObj _ _ props =>
      match props !! k with
      | Some (VNum m) => m =? n
      | _ => false
      end
  | _ => false
  end.

(** The event has the boolean [true] as its property [k]. *)
Definition has_true (evt : value) (k : string) : bool :=
  match evt with
  | VObj _ _ props =>
      match props !! k with
      | Some (VBool b) => b
      | _ => false
      end
  | _ => false
  end.

(** The Ctrl+E chord: control held, character code of the lowercase e. *)
Definition is_ctrl_e (evt : value) : bool :=
  has_true evt "ctrlKey" && has_code evt "charCode" 101.

(** The key of a key press, reported by the event as [charOrCode] or as
    [keyCode]. *)
Definition is_key (code : Z) (e : value) : bool :=
  has_code e "charOrCode" code || has_code e "keyCode" code.

Definition is_stop (a : action) : bool :=
  match a with
  | EventStop _ => true
  | _ => false
  end.

Definition is_hook (a : action) : bool :=
  match a with
  | CallHook _ => true
  | _ => false
  end.

Definition is_inherited (a : action) : bool :=
  match a with
  | Inherited _ _ => true
  | _ => false
  end.

Definition is_emit (a : action) : bool :=
  match a with
  | OnEmit _ _ _ => true
  | _ => false
  end.

Definition count (p : action → bool) (t : list action) : nat :=
  length (filter (λ a, p a = true) t).

(** The handlers that deliver a keyboard event to the container. *)
Definition is_dispatch (o : op) : bool :=
  match o with
  | ContainerKeypress _ | ContainerKeydown _ => true
  | _ => false
  end.

Definition is_notice (o : op) : bool :=
  match o with
  | OnSuppressKeyNavigation _ => true
  | _ => false
  end.

(** The event argument of the handlers that read properties of it. *)
Definition event_read (o : op) : option value :=
  match o with
  | KeyPress evt | ValueEntryKeyPress evt | OnSuppressKeyNavigation evt =>
      Some evt
  | _ => None
  end.

(** A call is well formed when the handler is given an event to read: the
    three handlers that read properties of their argument are documented to
    take an object. *)
Definition well_formed (o : op) : bool :=
  match event_read o with
  | Some evt => negb (nullish evt)
  | None => true
  end.

(** ** Sample widgets and events *)

(** The codes of dojo/keys. *)
Definition dojo : dojo_keys := Keys 27 13.

Definition some_function (ref : positive) : value := VObj ref true ∅.

Definition some_node (ref : positive) : value := VObj ref false ∅.

(** A widget with the three hooks and a root node. *)
Definition editor : widget :=
  construct (some_function 1) (some_function 2) (some_function 3)
    (some_node 4).

(** A widget without hooks. *)
Definition bare : widget :=
  construct VUndefined VUndefined VUndefined (some_node 4).

Definition key_event (ref : positive) (ctrl shift alt : bool)
    (charCode keyCode : Z) : value :=
  VObj ref false
    {[ "ctrlKey" := VBool ctrl;
       "shiftKey" := VBool shift;
       "altKey" := VBool alt;
       "charCode" := VNum charCode;
       "keyCode" := VNum keyCode ]}.

Definition notice (ref : positive) (suppress : value) : value :=
  VObj ref false
    {[ "bubbles" := VBool true;
       "cancelable" := VBool true;
       "suppress" := suppress ]}.

(** A notice without a [suppress] property. *)
Definition empty_notice (ref : positive) : value := VObj ref false ∅.

(** ** The two states of a container *)

(** A container is either navigable or suppressed.  Only a notice that could
    be read moves it: to [Suppressed] when its [suppress] is the boolean
    [true], to [Navigable] otherwise. *)
Inductive navigation : Type :=
| Navigable
| Suppressed.

Definition flag_of (s : navigation) : value :=
  match s with
  | Navigable => VBool false
  | Suppressed => VBool true
  end.

Definition navigation_step (s : navigation) (o : op) : navigation :=
  match o with
  | OnSuppressKeyNavigation evt =>
      if nullish evt then s
      else if has_true evt "suppress" then Suppressed else Navigable
  | _ => s
  end.

Definition navigation_after (s : navigation) (ops : list op) : navigation :=
  fold_left navigation_step ops s.

(** The call of the inherited handler that a key of the container is due. *)
Definition forward (o : op) : list action :=
  match o with
  | ContainerKeypress evt => [Inherited "_onContainerKeypress" [evt]]
  | ContainerKeydown evt => [Inherited "_onContainerKeydown" [evt]]
  | _ => []
  end.

(** The calls of the inherited handler that a sequence of calls is due: those
    of the keys that arrive while the container is navigable. *)
Fixpoint forwarded (s : navigation) (ops : list op) : list action :=
  match ops with
  | [] => []
  | o :: ops' =>
      match s with
      | Navigable => forward o
      | Suppressed => []
      end ++ forwarded (navigation_step s o) ops'
  end.

(** The calls to [this.inherited] in a trace. *)
Definition inherited_calls (t : list action) : list action :=
  filter (λ a, is_inherited a = true) t.

(** The collaborator calls that belong to a handler: it stops the event it
    was given, calls its own hooks, emits the suppression notice, or hands
    its event to the inherited handler of its own name. *)
Definition own_call (o : op) (a : action) : Prop :=
  match o, a with
  | KeyPress evt, EventStop e => e = evt
  | KeyPress _, CallHook name => name = "onEditClick"
  | ValueEntryKeyPress evt, EventStop e => e = evt
  | ValueEntryKeyPress _, CallHook name => name = "onCancel" ∨ name = "onSave"
  | SuppressContainerKeyboardNavigation _ _, OnEmit _ type _ =>
      type = "onSuppressKeyNavigation"
  | SuppressFocusRequest evt, EventStop e => e = evt
  | ContainerKeypress evt, Inherited name args =>
      name = "_onContainerKeypress" ∧ args = [evt]
  | ContainerKeydown evt, Inherited name args =>
      name = "_onContainerKeydown" ∧ args = [evt]
  | _, _ => False
  end.

(** ** aikauTesting/mockservices/MultiSelectInputMockXhr *)

Module MockXhr.

(** What a [throw] carries into a [catch]: an error raised by the language,
    or the value that a collaborator threw. *)
Inductive thrown : Type :=
| Native (e : exn)
| Thrown (v : value).

(** The members of [this] that [setupServer] uses. *)
Record mock : Type := Mock {
  server : value;
  alfLog : value
}.

(** What the two collaborators do once they are called: return ([None]) or
    throw a value. *)
Record behaviour : Type := Behaviour {
  respondWith_throws : option value;
  alfLog_throws : option value
}.

(** A call that leaves the module. *)
Inductive effect : Type :=
| RespondWith (method pattern : string) (status : Z)
    (headers : gmap string string) (body : string)
    (* this.server.respondWith(method, /pattern/, [status, headers, body]) *)
| AlfLog (level message : string) (e : thrown).
    (* this.alfLog(level, message, e) *)

(** The calls made, in order, and how the statement completed. *)
Definition attempt : Type := list effect * (thrown + unit).

(** Calling the value [f]: a [TypeError] unless it is a function. *)
Definition invoke (f : value) (c : effect) (throws : option value) : attempt :=
  if String.eqb (typeof f) "function" then
    ([c], match throws with
          | Some v => inl (Thrown v)
          | None => inr ()
          end)
  else ([], inl (Native TypeError)).

(** [obj.name(...)] *)
Definition call_method (obj : value) (name : string) (c : effect)
    (throws : option value) : attempt :=
  match get obj name with
  | inl e => ([], inl (Native e))
  | inr f => invoke f c throws
  end.

(** [try { body } catch (e) { handler }] *)
Definition try_catch (body : attempt) (handler : thrown → attempt) : attempt :=
  match body with
  | (t, inl e) => let '(t', r) := handler e in (t ++ t', r)
  | (t, inr u) => (t, inr u)
  end.

Definition tag_root_pattern : string := "(.*)tag:tag-root(.*)".

Definition json_headers : gmap string string :=
  {[ "Content-Type" := "application/json;charset=UTF-8" ]}.

Definition setup_message : string :=
  "The following error occurred setting up the mock server".

(** [tags] is the text of the response template that the module's factory
    function receives. *)
Definition setupServer (tags : string) (b : behaviour) (this : mock)
    : attempt :=
  try_catch
    (call_method (server this) "respondWith"
       (RespondWith "GET" tag_root_pattern 200 json_headers tags)
       (respondWith_throws b))
    (λ e,
       invoke (alfLog this) (AlfLog "error" setup_message e) (alfLog_throws b)).

(** The server can register a response: it has a [respondWith] function. *)
Definition can_respond (srv : value) : bool :=
  match srv with
  | VObj _ _ props =>
      match props !! "respondWith" with
      | Some f => registered f
      | None => false
      end
  | _ => false
  end.

(** A fake server, and one without [respondWith]. *)
Definition fake_server : value :=
  VObj 20 false {[ "respondWith" := some_function 21 ]}.

Definition broken_server : value := VObj 22 false ∅.

End MockXhr.

(** ** Collaborators that throw *)







(** ** Reading properties and comparing them *)

Lemma strict_eq_true_r (v : value) :
  strict_eq v (VBool true) = match v with VBool b => b | _ => false end.
Proof. by destruct v as [| |[]| | | |]. Qed.

Lemma strict_eq_num_r (v : value) (n : Z) :
  strict_eq v (VNum n) = match v with VNum m => m =? n | _ => false end.
Proof. by destruct v. Qed.

Lemma typeof_function (v : value) :
  String.eqb (typeof v) "function" = registered v.
Proof. by destruct v as [| | | | | |r [] props]. Qed.

Lemma get_has_true (evt : value) (k : string) (v : value) :
  get evt k = inr v → strict_eq v (VBool true) = has_true evt k.
Proof.
  rewrite strict_eq_true_r.
  destruct evt as [| | | | | |r c props]; simpl; try congruence;
    try (intros [= <-]; reflexivity).
  intros [= <-]. by destruct (props !! k) as [[]|].
Qed.

Lemma get_has_code (evt : value) (k : string) (n : Z) (v : value) :
  get evt k = inr v → strict_eq v (VNum n) = has_code evt k n.
Proof.
  rewrite strict_eq_num_r.
  destruct evt as [| | | | | |r c props]; simpl; try congruence;
    try (intros [= <-]; reflexivity).
  intros [= <-]. by destruct (props !! k) as [[]|].
Qed.

Lemma get_nullish (evt : value) (k : string) :
  nullish evt = true → get evt k = inl TypeError.
Proof. by destruct evt. Qed.

Lemma get_defined (evt : value) (k : string) :
  nullish evt = false → ∃ v, get evt k = inr v.
Proof. destruct evt; simpl; try discriminate; eauto. Qed.

Lemma truthy_defined (evt : value) (k : string) (v : value) :
  get evt k = inr v → strict_eq v (VBool true) = true → truthy evt = true.
Proof.
  rewrite strict_eq_true_r.
  destruct evt as [| |b|n| |s|r c props]; simpl; try congruence;
    by intros [= <-].
Qed.

(** ** Running a handler *)

Lemma run_bind {A B} (m : M A) (f : A → M B) (w : widget) :
  bind m f w =
    match result (m w) with
    | inl e => Outcome (inl e) (final (m w)) (trace (m w))
    | inr a =>
        Outcome (result (f a (final (m w)))) (final (f a (final (m w))))
          (trace (m w) ++ trace (f a (final (m w))))
    end.
Proof. reflexivity. Qed.

Lemma run_prop (evt : value) (k : string) (w : widget) :
  prop evt k w = Outcome (get evt k) w [].
Proof. unfold prop. by destruct (get evt k). Qed.

Lemma run_this {A} (member : widget → A) (w : widget) :
  this member w = Outcome (inr (member w)) w [].
Proof. reflexivity. Qed.

Lemma run_perform (a : action) (w : widget) :
  perform a w = Outcome (inr ()) w [a].
Proof. reflexivity. Qed.

Lemma run_ret {A} (a : A) (w : widget) : ret a w = Outcome (inr a) w [].
Proof. reflexivity. Qed.

Ltac run :=
  repeat (rewrite ?run_bind, ?run_prop, ?run_this, ?run_perform, ?run_ret;
          cbn [result final trace app]).

(** Membership in a trace that is known element by element. *)
Ltac in_trace H :=
  cbn [trace] in H;
  repeat (apply elem_of_cons in H as [H|H]);
  try (apply elem_of_nil in H; contradiction);
  try discriminate; simplify_eq.

(** Assigning the value the member already has changes nothing. *)
Lemma with_suppressKeyNavigation_same (w : widget) :
  with_suppressKeyNavigation (suppressKeyNavigation w) w = w.
Proof. by destruct w. Qed.

(** *** onKeyPress *)

Lemma onKeyPress_event (w : widget) (evt : value) :
  nullish evt = false →
  onKeyPress evt w =
    Outcome (inr ()) w
      (if is_ctrl_e evt
       then EventStop evt :: hook_call "onEditClick" (onEditClick w)
       else []).
Proof.
  intros Hevt. unfold onKeyPress, and_also, is_ctrl_e, guarded, hook_call.
  destruct (get_defined evt "ctrlKey" Hevt) as [a Ha].
  destruct (get_defined evt "charCode" Hevt) as [b Hb].
  run. rewrite Ha. run.
  rewrite <- (get_has_true _ _ _ Ha), <- (get_has_code _ _ _ _ Hb).
  destruct (strict_eq a (VBool true)) eqn:Hc; run; [|done].
  rewrite Hb. run.
  destruct (strict_eq b (VNum 101)); run; [|done].
  rewrite (truthy_defined _ _ _ Ha Hc). run. rewrite typeof_function.
  by destruct (registered (onEditClick w)).
Qed.

Lemma onKeyPress_nullish (w : widget) (evt : value) :
  nullish evt = true → onKeyPress evt w = Outcome (inl TypeError) w [].
Proof.
  intros Hevt. unfold onKeyPress, and_also. run.
  by rewrite (get_nullish _ _ Hevt).
Qed.

Lemma is_ctrl_e_defined (evt : value) :
  is_ctrl_e evt = true → nullish evt = false.
Proof. by destruct evt. Qed.

(** *** onValueEntryKeyPress *)

Lemma key_test (e : value) (code : Z) (w : widget) :
  nullish e = false →
  or_else
    (let* v := prop e "charOrCode" in ret (strict_eq v (VNum code)))
    (let* v := prop e "keyCode" in ret (strict_eq v (VNum code))) w =
  Outcome (inr (is_key code e)) w [].
Proof.
  intros He. unfold or_else, is_key.
  destruct (get_defined e "charOrCode" He) as [a Ha].
  destruct (get_defined e "keyCode" He) as [b Hb].
  run. rewrite Ha. run.
  rewrite <- (get_has_code _ _ _ _ Ha), <- (get_has_code _ _ _ _ Hb).
  destruct (strict_eq a (VNum code)); run; [done|].
  rewrite Hb. by run.
Qed.

Lemma onValueEntryKeyPress_event (keys : dojo_keys) (w : widget) (e : value) :
  nullish e = false →
  onValueEntryKeyPress keys e w =
    Outcome (inr ()) w
      (if is_key (ESCAPE keys) e
       then EventStop e :: hook_call "onCancel" (onCancel w)
       else if is_key (ENTER keys) e
       then EventStop e :: hook_call "onSave" (onSave w)
       else []).
Proof.
  intros He. unfold onValueEntryKeyPress, hook_call.
  rewrite run_bind, (key_test _ _ _ He). cbn [result final trace app].
  destruct (is_key (ESCAPE keys) e).
  - run. rewrite typeof_function. by destruct (registered (onCancel w)).
  - rewrite run_bind, (key_test _ _ _ He). cbn [result final trace app].
    destruct (is_key (ENTER keys) e); [|done].
    run. rewrite typeof_function. by destruct (registered (onSave w)).
Qed.

Lemma onValueEntryKeyPress_nullish (keys : dojo_keys) (w : widget) (e : value) :
  nullish e = true →
  onValueEntryKeyPress keys e w = Outcome (inl TypeError) w [].
Proof.
  intros He. unfold onValueEntryKeyPress, or_else. run.
  by rewrite (get_nullish _ _ He).
Qed.

Lemma is_key_defined (code : Z) (e : value) :
  is_key code e = true → nullish e = false.
Proof. by destruct e. Qed.

(** *** The other handlers *)

Lemma onSuppressKeyNavigation_event (w : widget) (evt : value) :
  nullish evt = false →
  onSuppressKeyNavigation evt w =
    Outcome (inr ())
      (with_suppressKeyNavigation (VBool (has_true evt "suppress")) w) [].
Proof.
  intros Hevt. unfold onSuppressKeyNavigation.
  destruct (get_defined evt "suppress" Hevt) as [a Ha].
  run. rewrite Ha. cbn [result final trace app].
  by rewrite (get_has_true _ _ _ Ha).
Qed.

Lemma onSuppressKeyNavigation_nullish (w : widget) (evt : value) :
  nullish evt = true →
  onSuppressKeyNavigation evt w = Outcome (inl TypeError) w [].
Proof.
  intros Hevt. unfold onSuppressKeyNavigation. run.
  by rewrite (get_nullish _ _ Hevt).
Qed.

Lemma suppressFocusRequest_outcome (w : widget) (evt : value) :
  suppressFocusRequest evt w =
    Outcome (inr ()) w (if truthy evt then [EventStop evt] else []).
Proof. unfold suppressFocusRequest, guarded. by destruct (truthy evt). Qed.

Lemma suppressContainerKeyboardNavigation_outcome
    (w : widget) (suppress node : value) :
  suppressContainerKeyboardNavigation suppress node w =
    Outcome (inr ()) w
      [OnEmit (if truthy node then node else domNode w)
         "onSuppressKeyNavigation"
         {[ "bubbles" := VBool true;
            "cancelable" := VBool true;
            "suppress" := suppress ]}].
Proof.
  unfold suppressContainerKeyboardNavigation. by destruct (truthy node).
Qed.

Lemma _onContainerKeypress_outcome (w : widget) (evt : value) :
  _onContainerKeypress evt w =
    Outcome (inr ()) w
      (if strict_eq (suppressKeyNavigation w) (VBool false)
       then [Inherited "_onContainerKeypress" [evt]]
       else []).
Proof.
  unfold _onContainerKeypress. run.
  by destruct (strict_eq (suppressKeyNavigation w) (VBool false)).
Qed.

Lemma _onContainerKeydown_outcome (w : widget) (evt : value) :
  _onContainerKeydown evt w =
    Outcome (inr ()) w
      (if strict_eq (suppressKeyNavigation w) (VBool false)
       then [Inherited "_onContainerKeydown" [evt]]
       else []).
Proof.
  unfold _onContainerKeydown. run.
  by destruct (strict_eq (suppressKeyNavigation w) (VBool false)).
Qed.

Lemma strict_eq_false_r (v : value) :
  strict_eq v (VBool false) = true ↔ v = VBool false.
Proof.
  destruct v as [| |[]| | | |]; simpl; split; congruence.
Qed.

(** ** The effect of one call on the widget *)

Lemma call_frame (keys : dojo_keys) (o : op) (w : widget) :
  is_notice o = false → final (call keys o w) = w.
Proof.
  destruct o as [evt|evt|s n|evt|evt|evt|evt]; cbn [call is_notice];
    try discriminate; intros _.
  - destruct (nullish evt) eqn:Hevt.
    + by rewrite onKeyPress_nullish.
    + by rewrite onKeyPress_event.
  - destruct (nullish evt) eqn:Hevt.
    + by rewrite onValueEntryKeyPress_nullish.
    + by rewrite onValueEntryKeyPress_event.
  - by rewrite suppressContainerKeyboardNavigation_outcome.
  - by rewrite suppressFocusRequest_outcome.
  - by rewrite _onContainerKeypress_outcome.
  - by rewrite _onContainerKeydown_outcome.
Qed.

Lemma call_notice (keys : dojo_keys) (evt : value) (w : widget) :
  final (call keys (OnSuppressKeyNavigation evt) w) =
    if nullish evt then w
    else with_suppressKeyNavigation (VBool (has_true evt "suppress")) w.
Proof.
  simpl. destruct (nullish evt) eqn:Hevt.
  - by rewrite onSuppressKeyNavigation_nullish.
  - by rewrite onSuppressKeyNavigation_event.
Qed.

Lemma call_boolean (keys : dojo_keys) (o : op) (w : widget) :
  is_boolean (suppressKeyNavigation w) = true →
  is_boolean (suppressKeyNavigation (final (call keys o w))) = true.
Proof.
  intros Hw. destruct (is_notice o) eqn:Ho.
  - destruct o; try discriminate. rewrite call_notice.
    by destruct (nullish evt).
  - by rewrite call_frame.
Qed.



(** ** Sequences of calls *)

Lemma run_cons (keys : dojo_keys) (o : op) (ops : list op) (w : widget) :
  run keys (o :: ops) w =
    ((run keys ops (final (call keys o w))).1,
     trace (call keys o w) ++ (run keys ops (final (call keys o w))).2).
Proof. simpl. by destruct (run keys ops (final (call keys o w))). Qed.

Lemma run_app (keys : dojo_keys) (ops ops' : list op) (w : widget) :
  run keys (ops ++ ops') w =
    ((run keys ops' (run keys ops w).1).1,
     (run keys ops w).2 ++ (run keys ops' (run keys ops w).1).2).
Proof.
  revert w. induction ops as [|o ops IH]; intros w.
  - simpl. by destruct (run keys ops' w).
  - rewrite <- app_comm_cons, !run_cons, IH. simpl. by rewrite app_assoc.
Qed.

Lemma run_boolean (keys : dojo_keys) (ops : list op) (w : widget) :
  is_boolean (suppressKeyNavigation w) = true →
  is_boolean (suppressKeyNavigation (run keys ops w).1) = true.
Proof.
  revert w. induction ops as [|o ops IH]; intros w Hw; [done|].
  rewrite run_cons. simpl. by apply IH, call_boolean.
Qed.


(** ** The handlers on sample events *)

Example ctrl_e_enters_edit_mode :
  onKeyPress (key_event 9 true false false 101 0) editor =
    Outcome (inr ()) editor
      [EventStop (key_event 9 true false false 101 0);
       CallHook "onEditClick"].
Proof. vm_compute. reflexivity. Qed.

Example ctrl_alt_e_enters_edit_mode :
  trace (onKeyPress (key_event 9 true false true 101 0) editor) =
    [EventStop (key_event 9 true false true 101 0); CallHook "onEditClick"].
Proof. vm_compute. reflexivity. Qed.

Example plain_e_is_ignored :
  onKeyPress (key_event 9 false false false 101 0) editor =
    Outcome (inr ()) editor [].
Proof. vm_compute. reflexivity. Qed.

Example escape_cancels :
  trace (onValueEntryKeyPress dojo (key_event 9 false false false 0 27) editor) =
    [EventStop (key_event 9 false false false 0 27); CallHook "onCancel"].
Proof. vm_compute. reflexivity. Qed.

Example enter_saves :
  trace (onValueEntryKeyPress dojo (key_event 9 false false false 0 13) editor) =
    [EventStop (key_event 9 false false false 0 13); CallHook "onSave"].
Proof. vm_compute. reflexivity. Qed.

Example tab_is_ignored :
  trace (onValueEntryKeyPress dojo (key_event 9 false false false 0 9) editor) =
    [].
Proof. vm_compute. reflexivity. Qed.

(** Suppress, press a key, resume, press a key: the container's own handler
    is reached by the second key press only. *)
Example suppress_then_resume :
  run dojo
    [OnSuppressKeyNavigation (notice 7 (VBool true));
     ContainerKeydown (key_event 8 false false false 0 40);
     OnSuppressKeyNavigation (notice 7 (VBool false));
     ContainerKeydown (key_event 9 false false false 0 40)]
    editor =
  (editor,
   [Inherited "_onContainerKeydown" [key_event 9 false false false 0 40]]).
Proof. vm_compute. reflexivity. Qed.

(** A handler that reads its event throws when there is none. *)
Example no_event_throws :
  result (onKeyPress VUndefined editor) = inl TypeError ∧
  result (onValueEntryKeyPress dojo VNull editor) = inl TypeError ∧
  result (onSuppressKeyNavigation VUndefined editor) = inl TypeError.
Proof. by vm_compute. Qed.

(** ** Gating of the container's key handlers *)

Lemma count_nil (p : action → bool) : count p [] = 0%nat.
Proof. reflexivity. Qed.

Lemma count_cons (p : action → bool) (a : action) (t : list action) :
  count p (a :: t) = ((if p a then 1 else 0) + count p t)%nat.
Proof.
  unfold count. rewrite filter_cons.
  destruct (p a); by case_decide.
Qed.

Lemma run_dispatch_suppressed (keys : dojo_keys) (ops : list op) (w : widget) :
  forallb is_dispatch ops = true →
  strict_eq (suppressKeyNavigation w) (VBool false) = false →
  run keys ops w = (w, []).
Proof.
  intros Hops Hw. induction ops as [|o ops IH]; [done|].
  cbn [forallb] in Hops. apply andb_true_iff in Hops as [Ho Hops].
  rewrite run_cons.
  destruct o; try discriminate; cbn [call].
  - rewrite _onContainerKeypress_outcome, Hw. cbn [final trace app].
    by rewrite IH.
  - rewrite _onContainerKeydown_outcome, Hw. cbn [final trace app].
    by rewrite IH.
Qed.

Lemma run_dispatch_navigable (keys : dojo_keys) (ops : list op) (w : widget) :
  forallb is_dispatch ops = true →
  suppressKeyNavigation w = VBool false →
  (run keys ops w).1 = w ∧
  count is_inherited (run keys ops w).2 = length ops.
Proof.
  intros Hops Hw. induction ops as [|o ops IH]; [done|].
  cbn [forallb] in Hops. apply andb_true_iff in Hops as [Ho Hops].
  destruct (IH Hops) as [IHw IHt].
  rewrite run_cons.
  destruct o; try discriminate; cbn [call].
  - rewrite _onContainerKeypress_outcome, Hw.
    cbn [strict_eq Bool.eqb final trace app fst snd length].
    split; [done|]. by rewrite count_cons, IHt.
  - rewrite _onContainerKeydown_outcome, Hw.
    cbn [strict_eq Bool.eqb final trace app fst snd length].
    split; [done|]. by rewrite count_cons, IHt.
Qed.

(** C1.  [_onContainerKeypress] and [_onContainerKeydown] hand the event to
    the inherited handler exactly when [suppressKeyNavigation] is [false]:
    then the one call recorded is the inherited one, with the event; with any
    other value nothing is called.  While [suppressKeyNavigation] is [true],
    any sequence of key presses and key downs reaches the inherited handler
    zero times and leaves the widget as it is; while it is [false], every one
    of them reaches it. *)
Theorem container_keys_forwarded_iff_not_suppressed
    (keys : dojo_keys) (w : widget) (evt : value) :
  (Inherited "_onContainerKeypress" [evt] ∈ trace (_onContainerKeypress evt w)
     ↔ suppressKeyNavigation w = VBool false) ∧
  (Inherited "_onContainerKeydown" [evt] ∈ trace (_onContainerKeydown evt w)
     ↔ suppressKeyNavigation w = VBool false) ∧
  (suppressKeyNavigation w = VBool false →
     _onContainerKeypress evt w =
       Outcome (inr ()) w [Inherited "_onContainerKeypress" [evt]] ∧
     _onContainerKeydown evt w =
       Outcome (inr ()) w [Inherited "_onContainerKeydown" [evt]]) ∧
  (suppressKeyNavigation w = VBool true →
     ∀ ops : list op, forallb is_dispatch ops = true →
       run keys ops w = (w, []) ∧ count is_inherited (run keys ops w).2 = 0%nat) ∧
  (suppressKeyNavigation w = VBool false →
     ∀ ops : list op, forallb is_dispatch ops = true →
       count is_inherited (run keys ops w).2 = length ops).
Proof.
  rewrite _onContainerKeypress_outcome, _onContainerKeydown_outcome.
  cbn [trace].
  pose proof (strict_eq_false_r (suppressKeyNavigation w)) as Hf.
  split; [|split; [|split; [|split]]].
  - split.
    + destruct (strict_eq _ _); intros H; [by apply Hf|in_trace H].
    + intros H. apply Hf in H. rewrite H. apply elem_of_cons; by left.
  - split.
    + destruct (strict_eq _ _); intros H; [by apply Hf|in_trace H].
    + intros H. apply Hf in H. rewrite H. apply elem_of_cons; by left.
  - intros H. apply Hf in H. by rewrite H.
  - intros Hw ops Hops.
    rewrite run_dispatch_suppressed; [done..|]. by rewrite Hw.
  - intros Hw ops Hops. by apply run_dispatch_navigable.
Qed.

Lemma container_keys_forwarded_iff_not_suppressed_witness :
  suppressKeyNavigation
    (with_suppressKeyNavigation (VBool true) editor) = VBool true ∧
  run dojo
    [ContainerKeypress (key_event 8 false false false 0 40);
     ContainerKeydown (key_event 9 false false false 0 38)]
    (with_suppressKeyNavigation (VBool true) editor) =
  (with_suppressKeyNavigation (VBool true) editor, []).
Proof.
  split; [reflexivity|].
  apply (container_keys_forwarded_iff_not_suppressed dojo
           (with_suppressKeyNavigation (VBool true) editor) VUndefined);
    reflexivity.
Defined.

(** ** Suppression notices *)






(** Only the boolean [true] suppresses. *)
Example suppress_values :
  has_true (notice 7 (VBool true)) "suppress" = true ∧
  has_true (notice 7 (VBool false)) "suppress" = false ∧
  has_true (notice 7 (VStr "true")) "suppress" = false ∧
  has_true (notice 7 (VNum 1)) "suppress" = false ∧
  has_true (notice 7 (some_node 8)) "suppress" = false ∧
  has_true (empty_notice 7) "suppress" = false.
Proof. by vm_compute. Qed.

(** ** The edit shortcut and the keys of the entry field *)

(** Properties other than [ctrlKey] and [charCode] play no part in the
    chord. *)
Lemma is_ctrl_e_other_property (ref : positive) (callable : bool)
    (props : gmap string value) (k : string) (v : value) :
  k ≠ "ctrlKey" → k ≠ "charCode" →
  is_ctrl_e (VObj ref callable (<[k:=v]> props)) =
    is_ctrl_e (VObj ref callable props).
Proof.
  intros Hctrl Hchar. unfold is_ctrl_e, has_true, has_code.
  by rewrite !lookup_insert_ne.
Qed.

(** C3.  On an event that is the Ctrl+E chord, whatever else the event
    carries, [onKeyPress] stops the event once and then calls a registered
    [onEditClick] once, and does nothing else; on any other event it stops
    nothing and calls nothing. *)
Theorem onKeyPress_ctrl_e_only (w : widget) (evt : value) :
  (is_ctrl_e evt = true → registered (onEditClick w) = true →
     onKeyPress evt w =
       Outcome (inr ()) w [EventStop evt; CallHook "onEditClick"]) ∧
  (is_ctrl_e evt = true →
     count is_stop (trace (onKeyPress evt w)) = 1%nat) ∧
  (is_ctrl_e evt = false →
     trace (onKeyPress evt w) = [] ∧ final (onKeyPress evt w) = w) ∧
  (∀ (ref : positive) (callable : bool) (props : gmap string value)
     (k : string) (v : value),
     evt = VObj ref callable props → k ≠ "ctrlKey" → k ≠ "charCode" →
     is_ctrl_e evt = true → registered (onEditClick w) = true →
     trace (onKeyPress (VObj ref callable (<[k:=v]> props)) w) =
       [EventStop (VObj ref callable (<[k:=v]> props));
        CallHook "onEditClick"]).
Proof.
  split; [|split; [|split]].
  - intros Hchord Hreg.
    rewrite onKeyPress_event by by apply is_ctrl_e_defined.
    unfold hook_call. by rewrite Hchord, Hreg.
  - intros Hchord.
    rewrite onKeyPress_event by by apply is_ctrl_e_defined.
    unfold hook_call. rewrite Hchord. cbn [trace].
    by destruct (registered (onEditClick w)).
  - intros Hchord. destruct (nullish evt) eqn:Hevt.
    + by rewrite onKeyPress_nullish.
    + rewrite onKeyPress_event by done. by rewrite Hchord.
  - intros ref callable props k v -> Hctrl Hchar Hchord Hreg.
    rewrite onKeyPress_event by done.
    rewrite is_ctrl_e_other_property by done.
    unfold hook_call. by rewrite Hchord, Hreg.
Qed.

Lemma onKeyPress_ctrl_e_only_witness :
  is_ctrl_e (key_event 9 true true true 101 69) = true ∧
  registered (onEditClick editor) = true ∧
  onKeyPress (key_event 9 true true true 101 69) editor =
    Outcome (inr ()) editor
      [EventStop (key_event 9 true true true 101 69); CallHook "onEditClick"].
Proof.
  split; [reflexivity|]. split; [reflexivity|].
  destruct (onKeyPress_ctrl_e_only editor (key_event 9 true true true 101 69))
    as [Hchord _].
  apply Hchord; reflexivity.
Defined.

(** C4.  [onValueEntryKeyPress] on Escape stops the event and calls a
    registered [onCancel], never [onSave]; otherwise on Enter it stops the
    event and calls a registered [onSave], never [onCancel]; on any other key
    it does nothing.  One call of the handler calls at most one hook. *)
Theorem onValueEntryKeyPress_escape_enter
    (keys : dojo_keys) (w : widget) (e : value) :
  (is_key (ESCAPE keys) e = true →
     onValueEntryKeyPress keys e w =
       Outcome (inr ()) w (EventStop e :: hook_call "onCancel" (onCancel w)) ∧
     CallHook "onSave" ∉ trace (onValueEntryKeyPress keys e w)) ∧
  (is_key (ESCAPE keys) e = false → is_key (ENTER keys) e = true →
     onValueEntryKeyPress keys e w =
       Outcome (inr ()) w (EventStop e :: hook_call "onSave" (onSave w)) ∧
     CallHook "onCancel" ∉ trace (onValueEntryKeyPress keys e w)) ∧
  (is_key (ESCAPE keys) e = false → is_key (ENTER keys) e = false →
     trace (onValueEntryKeyPress keys e w) = [] ∧
     final (onValueEntryKeyPress keys e w) = w) ∧
  (count is_hook (trace (onValueEntryKeyPress keys e w)) ≤ 1)%nat.
Proof.
  split; [|split; [|split]].
  - intros Hesc.
    rewrite onValueEntryKeyPress_event by by eapply is_key_defined.
    rewrite Hesc. split; [done|]. unfold hook_call.
    destruct (registered (onCancel w)); intros H; in_trace H.
  - intros Hesc Hent.
    rewrite onValueEntryKeyPress_event by by eapply is_key_defined.
    rewrite Hesc, Hent. split; [done|]. unfold hook_call.
    destruct (registered (onSave w)); intros H; in_trace H.
  - intros Hesc Hent. destruct (nullish e) eqn:He.
    + by rewrite onValueEntryKeyPress_nullish.
    + rewrite onValueEntryKeyPress_event by done. by rewrite Hesc, Hent.
  - destruct (nullish e) eqn:He.
    + rewrite onValueEntryKeyPress_nullish by done. cbn [trace].
      rewrite count_nil. lia.
    + rewrite onValueEntryKeyPress_event by done. unfold hook_call.
      destruct (is_key (ESCAPE keys) e), (is_key (ENTER keys) e),
        (registered (onCancel w)), (registered (onSave w));
        cbn [trace]; rewrite ?count_cons, count_nil; cbn [is_hook]; lia.
Qed.

Lemma onValueEntryKeyPress_escape_enter_witness :
  is_key (ESCAPE dojo) (key_event 9 false false false 0 27) = true ∧
  onValueEntryKeyPress dojo (key_event 9 false false false 0 27) editor =
    Outcome (inr ()) editor
      [EventStop (key_event 9 false false false 0 27); CallHook "onCancel"].
Proof.
  split; [reflexivity|].
  destruct (onValueEntryKeyPress_escape_enter dojo editor
              (key_event 9 false false false 0 27)) as [Hesc _].
  destruct (Hesc eq_refl) as [Hcancel _].
  exact Hcancel.
Defined.

(** ** Asking the containers to suppress *)

(** C5.  [suppressContainerKeyboardNavigation] emits one event and does
    nothing else: its type is onSuppressKeyNavigation, it bubbles, it is
    cancelable, it carries the [suppress] it was given, and it is emitted
    on the node it was given, or on [domNode] when it was given none
    ([undefined] or [null]). *)
Theorem suppressContainerKeyboardNavigation_emits
    (w : widget) (suppress node : value) :
  let init : gmap string value :=
    {[ "bubbles" := VBool true;
       "cancelable" := VBool true;
       "suppress" := suppress ]} in
  init !! "bubbles" = Some (VBool true) ∧
  init !! "cancelable" = Some (VBool true) ∧
  init !! "suppress" = Some suppress ∧
  ∃ target : value,
    suppressContainerKeyboardNavigation suppress node w =
      Outcome (inr ()) w [OnEmit target "onSuppressKeyNavigation" init] ∧
    (is_object node = true → target = node) ∧
    (nullish node = true → target = domNode w).
Proof.
  rewrite suppressContainerKeyboardNavigation_outcome.
  repeat split; try done.
  eexists. split; [reflexivity|]. split.
  - by destruct node.
  - by destruct node.
Qed.

Lemma suppressContainerKeyboardNavigation_emits_witness :
  is_object (some_node 5) = true ∧
  trace (suppressContainerKeyboardNavigation (VBool true) (some_node 5) editor) =
    [OnEmit (some_node 5) "onSuppressKeyNavigation"
       {[ "bubbles" := VBool true;
          "cancelable" := VBool true;
          "suppress" := VBool true ]}].
Proof.
  split; [reflexivity|].
  destruct (suppressContainerKeyboardNavigation_emits editor (VBool true)
              (some_node 5))
    as (_ & _ & _ & target & Hrun & Hnode & _).
  rewrite Hrun, (Hnode eq_refl). reflexivity.
Defined.

(** ** Order of stopping and calling *)

Lemma hook_after_stop (evt : value) (name hook : string) (h : value)
    (t1 t2 : list action) :
  EventStop evt :: hook_call hook h = t1 ++ CallHook name :: t2 →
  t1 = [EventStop evt] ∧ t2 = [].
Proof.
  unfold hook_call. destruct (registered h).
  - destruct t1 as [|a [|b t1]]; intros H; simplify_eq/=; [done|].
    by destruct t1.
  - destruct t1 as [|a t1]; intros H; simplify_eq/=.
    by destruct t1.
Qed.

(** C6.  In one call of [onKeyPress] or of [onValueEntryKeyPress], a hook
    that is called is called after the event has been stopped, and the event
    is not stopped again after the hook. *)
Theorem stop_before_hook
    (keys : dojo_keys) (w : widget) (evt : value) (name : string)
    (t1 t2 : list action) :
  trace (onKeyPress evt w) = t1 ++ CallHook name :: t2 ∨
  trace (onValueEntryKeyPress keys evt w) = t1 ++ CallHook name :: t2 →
  EventStop evt ∈ t1 ∧ Forall (λ a, is_stop a = false) t2.
Proof.
  assert (t1 = [EventStop evt] ∧ t2 = [] →
          EventStop evt ∈ t1 ∧ Forall (λ a, is_stop a = false) t2) as Hdone.
  { intros [-> ->]. split; [apply elem_of_cons; by left|constructor]. }
  intros [H|H]; apply Hdone.
  - destruct (nullish evt) eqn:Hevt.
    + rewrite onKeyPress_nullish in H by done. by destruct t1.
    + rewrite onKeyPress_event in H by done. cbn [trace] in H.
      destruct (is_ctrl_e evt); [by eapply hook_after_stop|by destruct t1].
  - destruct (nullish evt) eqn:Hevt.
    + rewrite onValueEntryKeyPress_nullish in H by done. by destruct t1.
    + rewrite onValueEntryKeyPress_event in H by done. cbn [trace] in H.
      destruct (is_key (ESCAPE keys) evt); [by eapply hook_after_stop|].
      destruct (is_key (ENTER keys) evt);
        [by eapply hook_after_stop|by destruct t1].
Qed.

Lemma stop_before_hook_witness :
  trace (onValueEntryKeyPress dojo (key_event 9 false false false 13 13) editor) =
    [EventStop (key_event 9 false false false 13 13)] ++
    CallHook "onSave" :: [] ∧
  EventStop (key_event 9 false false false 13 13) ∈
    [EventStop (key_event 9 false false false 13 13)].
Proof.
  split; [reflexivity|].
  apply (stop_before_hook dojo editor (key_event 9 false false false 13 13)
           "onSave" [EventStop (key_event 9 false false false 13 13)] []).
  right. reflexivity.
Defined.

(** ** Clicks on the edit control *)

(** C7.  [suppressFocusRequest] stops every click event it is given,
    whatever [suppressKeyNavigation] is, and leaves the widget as it is. *)
Theorem suppressFocusRequest_always_stops
    (w : widget) (ref : positive) (callable : bool)
    (props : gmap string value) :
  suppressFocusRequest (VObj ref callable props) w =
    Outcome (inr ()) w [EventStop (VObj ref callable props)].
Proof. reflexivity. Qed.

(** ** The suppression flag *)

(** C8.  A new widget has [suppressKeyNavigation] [false].  Every handler
    other than [onSuppressKeyNavigation] leaves the widget, and so the flag,
    as it found it, whatever it is given; [onSuppressKeyNavigation] does
    assign it. *)
Theorem suppressKeyNavigation_written_by_notice_only
    (keys : dojo_keys) (edit cancel save node : value) (o : op) (w : widget) :
  suppressKeyNavigation (construct edit cancel save node) = VBool false ∧
  (is_notice o = false → final (call keys o w) = w) ∧
  suppressKeyNavigation
    (final (onSuppressKeyNavigation (notice 1 (VBool true))
              (construct edit cancel save node))) = VBool true.
Proof.
  split; [done|]. split; [apply call_frame|].
  by rewrite onSuppressKeyNavigation_event.
Qed.

Lemma suppressKeyNavigation_written_by_notice_only_witness :
  is_notice (KeyPress (key_event 9 true false false 101 0)) = false ∧
  final (call dojo (KeyPress (key_event 9 true false false 101 0))
           (with_suppressKeyNavigation (VBool true) editor)) =
    with_suppressKeyNavigation (VBool true) editor.
Proof.
  split; [reflexivity|].
  apply (suppressKeyNavigation_written_by_notice_only dojo
           VUndefined VUndefined VUndefined VUndefined
           (KeyPress (key_event 9 true false false 101 0))
           (with_suppressKeyNavigation (VBool true) editor)).
  reflexivity.
Defined.

(** ** Absent hooks *)







(** C10.  From construction on, after any sequence of calls of the handlers
    with any arguments, [suppressKeyNavigation] is the boolean [true] or the
    boolean [false]; so the test [=== false] of the two container handlers
    succeeds exactly when the flag is not [true], and exactly when it is not
    truthy. *)
Theorem suppressKeyNavigation_always_boolean
    (keys : dojo_keys) (edit cancel save node : value) (ops : list op) :
  let w := (run keys ops (construct edit cancel save node)).1 in
  (suppressKeyNavigation w = VBool true ∨
   suppressKeyNavigation w = VBool false) ∧
  strict_eq (suppressKeyNavigation w) (VBool false) =
    negb (strict_eq (suppressKeyNavigation w) (VBool true)) ∧
  strict_eq (suppressKeyNavigation w) (VBool false) =
    negb (truthy (suppressKeyNavigation w)).
Proof.
  intros w.
  assert (is_boolean (suppressKeyNavigation w) = true) as Hw
    by by apply run_boolean.
  destruct (suppressKeyNavigation w) as [| |[]| | | |]; try discriminate;
    auto.
Qed.

(** ** Calls without an event *)

Lemma call_without_event (keys : dojo_keys) (o : op) (w : widget) :
  well_formed o = false → call keys o w = Outcome (inl TypeError) w [].
Proof.
  unfold well_formed.
  destruct o as [evt|evt|s n|evt|evt|evt|evt]; cbn [call event_read];
    try discriminate; intros Hevt; apply negb_false_iff in Hevt.
  - by apply onKeyPress_nullish.
  - by apply onValueEntryKeyPress_nullish.
  - by apply onSuppressKeyNavigation_nullish.
Qed.

(** X1.  The three handlers that read their event throw a [TypeError] when
    they are given [undefined] or [null], before anything is stopped, called
    or assigned: the widget is as it was and no call has left the mixin.
    [suppressFocusRequest], which tests its event before it uses it, makes
    no call on them and returns. *)
Theorem handlers_without_event
    (keys : dojo_keys) (w : widget) (evt : value) :
  nullish evt = true →
  onKeyPress evt w = Outcome (inl TypeError) w [] ∧
  onValueEntryKeyPress keys evt w = Outcome (inl TypeError) w [] ∧
  onSuppressKeyNavigation evt w = Outcome (inl TypeError) w [] ∧
  suppressFocusRequest evt w = Outcome (inr ()) w [].
Proof.
  intros Hevt. split; [|split; [|split]].
  - by apply onKeyPress_nullish.
  - by apply onValueEntryKeyPress_nullish.
  - by apply onSuppressKeyNavigation_nullish.
  - rewrite suppressFocusRequest_outcome. by destruct evt.
Qed.

Lemma handlers_without_event_witness :
  nullish VNull = true ∧
  onSuppressKeyNavigation VNull
    (with_suppressKeyNavigation (VBool true) editor) =
    Outcome (inl TypeError) (with_suppressKeyNavigation (VBool true) editor) [].
Proof.
  split; [reflexivity|].
  apply (handlers_without_event dojo
           (with_suppressKeyNavigation (VBool true) editor) VNull).
  reflexivity.
Defined.

(** X2.  A call that throws leaves no mark on the session: with it or without it,
    the calls before and after it make the same calls out and leave the same
    widget. *)
Theorem throwing_call_is_skipped
    (keys : dojo_keys) (ops ops' : list op) (o : op) (w : widget) :
  well_formed o = false →
  run keys (ops ++ o :: ops') w = run keys (ops ++ ops') w.
Proof.
  intros Ho. rewrite !run_app, run_cons, call_without_event by done.
  cbn [final trace app]. by destruct (run keys ops' _).
Qed.

Lemma throwing_call_is_skipped_witness :
  well_formed (KeyPress VUndefined) = false ∧
  run dojo
    ([OnSuppressKeyNavigation (notice 7 (VBool true))] ++
     KeyPress VUndefined ::
     [ContainerKeydown (key_event 8 false false false 0 40)])
    editor =
  run dojo
    ([OnSuppressKeyNavigation (notice 7 (VBool true))] ++
     [ContainerKeydown (key_event 8 false false false 0 40)])
    editor.
Proof.
  split; [reflexivity|].
  apply (throwing_call_is_skipped dojo
           [OnSuppressKeyNavigation (notice 7 (VBool true))]
           [ContainerKeydown (key_event 8 false false false 0 40)]
           (KeyPress VUndefined) editor).
  reflexivity.
Defined.

(** ** Editing while navigation is suppressed *)

(** X3.  Only the two container handlers look at [suppressKeyNavigation]: every
    other handler completes the same way and makes the same calls whatever
    the flag holds, so the edit shortcut, Escape and Enter, the click guard
    and the request to suppress all work while navigation is suppressed. *)
Theorem handlers_ignore_suppression
    (keys : dojo_keys) (o : op) (w : widget) (flag : value) :
  is_dispatch o = false →
  result (call keys o (with_suppressKeyNavigation flag w)) =
    result (call keys o w) ∧
  trace (call keys o (with_suppressKeyNavigation flag w)) =
    trace (call keys o w).
Proof.
  destruct o as [evt|evt|s n|evt|evt|evt|evt]; cbn [call is_dispatch];
    try discriminate; intros _.
  - destruct (nullish evt) eqn:Hevt.
    + by rewrite !onKeyPress_nullish.
    + by rewrite !onKeyPress_event.
  - destruct (nullish evt) eqn:Hevt.
    + by rewrite !onValueEntryKeyPress_nullish.
    + by rewrite !onValueEntryKeyPress_event.
  - by rewrite !suppressContainerKeyboardNavigation_outcome.
  - by rewrite !suppressFocusRequest_outcome.
  - destruct (nullish evt) eqn:Hevt.
    + by rewrite !onSuppressKeyNavigation_nullish.
    + by rewrite !onSuppressKeyNavigation_event.
Qed.

Lemma handlers_ignore_suppression_witness :
  is_dispatch (KeyPress (key_event 9 true false false 101 0)) = false ∧
  trace (call dojo (KeyPress (key_event 9 true false false 101 0))
           (with_suppressKeyNavigation (VBool true) editor)) =
    [EventStop (key_event 9 true false false 101 0); CallHook "onEditClick"].
Proof.
  split; [reflexivity|].
  destruct (handlers_ignore_suppression dojo
              (KeyPress (key_event 9 true false false 101 0)) editor
              (VBool true) eq_refl) as [_ Htrace].
  rewrite Htrace. reflexivity.
Defined.

(** ** The calls a handler makes *)

Ltac own_calls :=
  cbn [trace];
  split;
    [repeat match goal with
            | |- Forall _ (_ :: _) => constructor; [cbn; auto|]
            | |- Forall _ [] => constructor
            end
    |split; [cbn [length]; lia|done]].

(** X4.  Whatever a handler is given and whatever the widget holds, every call it
    makes out of the mixin is one of its own: [onKeyPress] stops only its
    event and calls only [onEditClick]; [onValueEntryKeyPress] stops only its
    event and calls only [onCancel] or [onSave]; [suppressFocusRequest] only
    stops its event; [suppressContainerKeyboardNavigation] only emits
    onSuppressKeyNavigation; the container handlers only call the inherited
    handler of their own name with their event; [onSuppressKeyNavigation]
    calls nothing, so it never stops the notice it handles.  No handler makes
    more than two calls. *)
Theorem handler_makes_own_calls_only
    (keys : dojo_keys) (o : op) (w : widget) :
  Forall (own_call o) (trace (call keys o w)) ∧
  (length (trace (call keys o w)) ≤ 2)%nat ∧
  (is_notice o = true → trace (call keys o w) = []).
Proof.
  destruct o as [evt|evt|s n|evt|evt|evt|evt]; cbn [call is_notice].
  - destruct (nullish evt) eqn:Hevt.
    + rewrite onKeyPress_nullish by done. own_calls.
    + rewrite onKeyPress_event by done. unfold hook_call.
      destruct (is_ctrl_e evt), (registered (onEditClick w)); own_calls.
  - destruct (nullish evt) eqn:Hevt.
    + rewrite onValueEntryKeyPress_nullish by done. own_calls.
    + rewrite onValueEntryKeyPress_event by done. unfold hook_call.
      destruct (is_key (ESCAPE keys) evt), (is_key (ENTER keys) evt),
        (registered (onCancel w)), (registered (onSave w)); own_calls.
  - rewrite suppressContainerKeyboardNavigation_outcome. own_calls.
  - rewrite suppressFocusRequest_outcome. destruct (truthy evt); own_calls.
  - destruct (nullish evt) eqn:Hevt.
    + rewrite onSuppressKeyNavigation_nullish by done. own_calls.
    + rewrite onSuppressKeyNavigation_event by done. own_calls.
  - rewrite _onContainerKeypress_outcome. destruct (strict_eq _ _); own_calls.
  - rewrite _onContainerKeydown_outcome. destruct (strict_eq _ _); own_calls.
Qed.

Lemma handler_makes_own_calls_only_witness :
  is_notice (OnSuppressKeyNavigation (notice 7 (VBool true))) = true ∧
  trace (call dojo (OnSuppressKeyNavigation (notice 7 (VBool true))) editor) =
    [].
Proof.
  split; [reflexivity|].
  apply (handler_makes_own_calls_only dojo
           (OnSuppressKeyNavigation (notice 7 (VBool true))) editor).
  reflexivity.
Defined.

(** ** The widget as a two-state machine *)

Lemma with_suppressKeyNavigation_twice (v v' : value) (w : widget) :
  with_suppressKeyNavigation v (with_suppressKeyNavigation v' w) =
    with_suppressKeyNavigation v w.
Proof. reflexivity. Qed.

Lemma flag_of_has_true (b : bool) :
  VBool b = flag_of (if b then Suppressed else Navigable).
Proof. by destruct b. Qed.

Lemma call_navigation_step
    (keys : dojo_keys) (o : op) (w : widget) (s : navigation) :
  suppressKeyNavigation w = flag_of s →
  final (call keys o w) =
    with_suppressKeyNavigation (flag_of (navigation_step s o)) w.
Proof.
  intros Hw. destruct (is_notice o) eqn:Ho.
  - destruct o; try discriminate. rewrite call_notice. cbn [navigation_step].
    destruct (nullish evt).
    + by rewrite <- Hw, with_suppressKeyNavigation_same.
    + by rewrite flag_of_has_true.
  - rewrite call_frame by done.
    replace (navigation_step s o) with s by by destruct o.
    by rewrite <- Hw, with_suppressKeyNavigation_same.
Qed.

Lemma run_navigation_widget
    (keys : dojo_keys) (ops : list op) (w : widget) (s : navigation) :
  suppressKeyNavigation w = flag_of s →
  (run keys ops w).1 =
    with_suppressKeyNavigation (flag_of (navigation_after s ops)) w.
Proof.
  revert w s. induction ops as [|o ops IH]; intros w s Hw.
  - cbn. by rewrite <- Hw, with_suppressKeyNavigation_same.
  - rewrite run_cons. cbn [fst navigation_after fold_left].
    rewrite (call_navigation_step keys o w s Hw).
    rewrite (IH _ (navigation_step s o)) by done.
    by rewrite with_suppressKeyNavigation_twice.
Qed.

(** X5.  Over any sequence of handler calls with any arguments, a widget that
    starts navigable or suppressed follows the two-state machine: the flag it
    ends with is the state that the readable notices of the sequence lead to,
    and its hooks and its root node are the ones it started with. *)
Theorem run_follows_navigation
    (keys : dojo_keys) (ops : list op) (w : widget) (s : navigation) :
  suppressKeyNavigation w = flag_of s →
  suppressKeyNavigation (run keys ops w).1 =
    flag_of (navigation_after s ops) ∧
  onEditClick (run keys ops w).1 = onEditClick w ∧
  onCancel (run keys ops w).1 = onCancel w ∧
  onSave (run keys ops w).1 = onSave w ∧
  domNode (run keys ops w).1 = domNode w.
Proof.
  intros Hw. by rewrite (run_navigation_widget keys ops w s Hw).
Qed.

Lemma run_follows_navigation_witness :
  suppressKeyNavigation editor = flag_of Navigable ∧
  suppressKeyNavigation
    (run dojo
       [OnSuppressKeyNavigation (notice 7 (VBool true));
        KeyPress (key_event 9 true false false 101 0);
        OnSuppressKeyNavigation VUndefined;
        ContainerKeydown (key_event 8 false false false 0 40)]
       editor).1 = VBool true.
Proof.
  split; [reflexivity|].
  destruct (run_follows_navigation dojo
              [OnSuppressKeyNavigation (notice 7 (VBool true));
               KeyPress (key_event 9 true false false 101 0);
               OnSuppressKeyNavigation VUndefined;
               ContainerKeydown (key_event 8 false false false 0 40)]
              editor Navigable eq_refl) as [Hflag _].
  exact Hflag.
Defined.

Lemma inherited_calls_app (t t' : list action) :
  inherited_calls (t ++ t') = inherited_calls t ++ inherited_calls t'.
Proof. apply filter_app. Qed.

Lemma inherited_calls_cons (a : action) (t : list action) :
  inherited_calls (a :: t) =
    if is_inherited a then a :: inherited_calls t else inherited_calls t.
Proof.
  unfold inherited_calls. rewrite filter_cons.
  destruct (is_inherited a); by case_decide.
Qed.

Lemma call_inherited_calls
    (keys : dojo_keys) (o : op) (w : widget) (s : navigation) :
  suppressKeyNavigation w = flag_of s →
  inherited_calls (trace (call keys o w)) =
    match s with
    | Navigable => forward o
    | Suppressed => []
    end.
Proof.
  intros Hw.
  assert (strict_eq (suppressKeyNavigation w) (VBool false) =
            match s with Navigable => true | Suppressed => false end) as Hs
    by (rewrite Hw; by destruct s).
  destruct o as [evt|evt|su n|evt|evt|evt|evt]; cbn [call forward].
  - destruct (nullish evt) eqn:Hevt.
    + rewrite onKeyPress_nullish by done. by destruct s.
    + rewrite onKeyPress_event by done. unfold hook_call. cbn [trace].
      destruct (is_ctrl_e evt), (registered (onEditClick w)), s;
        by rewrite ?inherited_calls_cons.
  - destruct (nullish evt) eqn:Hevt.
    + rewrite onValueEntryKeyPress_nullish by done. by destruct s.
    + rewrite onValueEntryKeyPress_event by done. unfold hook_call.
      cbn [trace].
      destruct (is_key (ESCAPE keys) evt), (is_key (ENTER keys) evt),
        (registered (onCancel w)), (registered (onSave w)), s;
        by rewrite ?inherited_calls_cons.
  - rewrite suppressContainerKeyboardNavigation_outcome. cbn [trace].
    rewrite inherited_calls_cons. by destruct s.
  - rewrite suppressFocusRequest_outcome. cbn [trace].
    destruct (truthy evt), s; by rewrite ?inherited_calls_cons.
  - destruct (nullish evt) eqn:Hevt.
    + rewrite onSuppressKeyNavigation_nullish by done. by destruct s.
    + rewrite onSuppressKeyNavigation_event by done. by destruct s.
  - rewrite _onContainerKeypress_outcome, Hs. cbn [trace].
    destruct s; by rewrite ?inherited_calls_cons.
  - rewrite _onContainerKeydown_outcome, Hs. cbn [trace].
    destruct s; by rewrite ?inherited_calls_cons.
Qed.

(** X6.  In any sequence of handler calls, the inherited key handler of the
    container is called for exactly the key presses and key downs that
    arrive while the machine is navigable, once each, in their order and
    with their own event; every key that arrives between a notice that
    suppresses and the next readable notice that does not is withheld. *)
Theorem run_forwards_navigable_keys
    (keys : dojo_keys) (ops : list op) (w : widget) (s : navigation) :
  suppressKeyNavigation w = flag_of s →
  inherited_calls (run keys ops w).2 = forwarded s ops.
Proof.
  revert w s. induction ops as [|o ops IH]; intros w s Hw; [done|].
  rewrite run_cons. cbn [snd forwarded].
  rewrite inherited_calls_app, (call_inherited_calls keys o w s Hw).
  f_equal. apply IH.
  rewrite (call_navigation_step keys o w s Hw). reflexivity.
Qed.

Lemma run_forwards_navigable_keys_witness :
  suppressKeyNavigation editor = flag_of Navigable ∧
  inherited_calls
    (run dojo
       [ContainerKeypress (key_event 5 false false false 0 38);
        OnSuppressKeyNavigation (notice 7 (VBool true));
        ContainerKeydown (key_event 8 false false false 0 40);
        KeyPress (key_event 9 true false false 101 0);
        OnSuppressKeyNavigation (notice 7 (VStr "true"));
        ContainerKeydown (key_event 6 false false false 0 40)]
       editor).2 =
  [Inherited "_onContainerKeypress" [key_event 5 false false false 0 38];
   Inherited "_onContainerKeydown" [key_event 6 false false false 0 40]].
Proof.
  split; [reflexivity|].
  rewrite (run_forwards_navigable_keys dojo _ editor Navigable eq_refl).
  reflexivity.
Defined.

(** ** From the request to the container *)

(** X7.  A request made with [suppressContainerKeyboardNavigation] and the notice
    handler of a container fit together: when the event that reaches the
    container carries the [suppress] of the emitted one, the container ends
    suppressed if the request was made with the boolean [true] and navigable
    if it was made with anything else, whatever state it was in; and its
    next key is withheld or forwarded accordingly. *)
Theorem request_reaches_container
    (w container : widget) (suppress node target : value) (type : string)
    (init props : gmap string value) (ref : positive) (callable : bool)
    (evt : value) :
  OnEmit target type init ∈
    trace (suppressContainerKeyboardNavigation suppress node w) →
  props !! "suppress" = init !! "suppress" →
  onSuppressKeyNavigation (VObj ref callable props) container =
    Outcome (inr ())
      (with_suppressKeyNavigation (VBool (strict_eq suppress (VBool true)))
         container) [] ∧
  trace (_onContainerKeydown evt
           (final (onSuppressKeyNavigation (VObj ref callable props)
                     container))) =
    if strict_eq suppress (VBool true) then []
    else [Inherited "_onContainerKeydown" [evt]].
Proof.
  rewrite suppressContainerKeyboardNavigation_outcome.
  intros Hemit Hprops. in_trace Hemit.
  assert (props !! "suppress" = Some suppress) as Hsuppress
    by (rewrite Hprops; done).
  assert (has_true (VObj ref callable props) "suppress" =
            strict_eq suppress (VBool true)) as Htrue.
  { rewrite strict_eq_true_r. cbn [has_true]. by rewrite Hsuppress. }
  rewrite onSuppressKeyNavigation_event by done. rewrite Htrue.
  split; [done|].
  rewrite _onContainerKeydown_outcome. cbn [final trace].
  by destruct (strict_eq suppress (VBool true)).
Qed.

Lemma request_reaches_container_witness :
  OnEmit (some_node 4) "onSuppressKeyNavigation"
    {[ "bubbles" := VBool true;
       "cancelable" := VBool true;
       "suppress" := VBool true ]} ∈
    trace (suppressContainerKeyboardNavigation (VBool true) VUndefined editor) ∧
  final (onSuppressKeyNavigation (notice 7 (VBool true)) bare) =
    with_suppressKeyNavigation (VBool true) bare.
Proof.
  assert (OnEmit (some_node 4) "onSuppressKeyNavigation"
            {[ "bubbles" := VBool true;
               "cancelable" := VBool true;
               "suppress" := VBool true ]} ∈
          trace (suppressContainerKeyboardNavigation (VBool true) VUndefined
                   editor)) as Hemit
    by (apply elem_of_cons; left; reflexivity).
  split; [exact Hemit|].
  destruct (request_reaches_container editor bare (VBool true) VUndefined
              (some_node 4) "onSuppressKeyNavigation" _
              {[ "bubbles" := VBool true;
                 "cancelable" := VBool true;
                 "suppress" := VBool true ]}
              7%positive false VUndefined Hemit eq_refl) as [Hnotice _].
  unfold notice. rewrite Hnotice. reflexivity.
Defined.

(** ** The mock server of the multi-select tests *)

Lemma mock_respondWith_defined (srv : value) :
  MockXhr.can_respond srv = true →
  ∃ f, get srv "respondWith" = inr f ∧ registered f = true.
Proof.
  destruct srv as [| | | | | |r c props]; try discriminate.
  cbn [MockXhr.can_respond get].
  destruct (props !! "respondWith") as [f|]; [eauto|discriminate].
Qed.

Lemma mock_respondWith_missing (srv : value) (c : MockXhr.effect)
    (throws : option value) :
  MockXhr.can_respond srv = false →
  MockXhr.call_method srv "respondWith" c throws =
    ([], inl (MockXhr.Native TypeError)).
Proof.
  unfold MockXhr.call_method, MockXhr.invoke.
  destruct srv as [| | | | | |r c' props]; try done.
  cbn [MockXhr.can_respond get].
  destruct (props !! "respondWith") as [f|]; [|done].
  cbn [default from_option id]. rewrite typeof_function. by intros ->.
Qed.

(** X8.  [setupServer] keeps a failed registration to itself.  With a logger that
    is a function and returns, it returns normally whatever [this.server] is
    and whatever [respondWith] does.  It registers one response, for GET
    requests on the tag-root pattern, with status 200, the JSON content type
    and the tags; when the server has no [respondWith] function (no server,
    or one without it) it registers nothing.  It logs exactly when the
    registration failed: one call of [alfLog] at level error, which is
    handed the [TypeError], or the very value that [respondWith] threw. *)
Theorem mock_setupServer_contains_failure
    (tags : string) (b : MockXhr.behaviour) (this : MockXhr.mock) :
  registered (MockXhr.alfLog this) = true →
  MockXhr.alfLog_throws b = None →
  let register :=
    MockXhr.RespondWith "GET" MockXhr.tag_root_pattern 200
      MockXhr.json_headers tags in
  let log e := MockXhr.AlfLog "error" MockXhr.setup_message e in
  MockXhr.setupServer tags b this =
    (if MockXhr.can_respond (MockXhr.server this) then
       match MockXhr.respondWith_throws b with
       | None => [register]
       | Some v => [register; log (MockXhr.Thrown v)]
       end
     else [log (MockXhr.Native TypeError)],
     inr ()).
Proof.
  intros Hlog Hreturns register log.
  unfold MockXhr.setupServer, MockXhr.try_catch.
  destruct (MockXhr.can_respond (MockXhr.server this)) eqn:Hsrv.
  - destruct (mock_respondWith_defined _ Hsrv) as (f & Hget & Hf).
    unfold MockXhr.call_method, MockXhr.invoke.
    rewrite Hget. cbv beta iota.
    rewrite !typeof_function, Hf, Hlog, Hreturns.
    by destruct (MockXhr.respondWith_throws b).
  - rewrite mock_respondWith_missing by done.
    unfold MockXhr.invoke. by rewrite typeof_function, Hlog, Hreturns.
Qed.

Lemma mock_setupServer_contains_failure_witness :
  registered (MockXhr.alfLog (MockXhr.Mock VUndefined (some_function 30))) =
    true ∧
  MockXhr.setupServer "[]"
    (MockXhr.Behaviour (Some (VStr "boom")) None)
    (MockXhr.Mock VUndefined (some_function 30)) =
  ([MockXhr.AlfLog "error"
      "The following error occurred setting up the mock server"
      (MockXhr.Native TypeError)],
   inr ()).
Proof.
  split; [reflexivity|].
  apply (mock_setupServer_contains_failure "[]"
           (MockXhr.Behaviour (Some (VStr "boom")) None)
           (MockXhr.Mock VUndefined (some_function 30)));
    reflexivity.
Defined.

(** X9.  Without a logger that is a function, a failed registration does surface:
    [setupServer] then throws the [TypeError] of the call to [alfLog], not
    the error of the registration; a registration that succeeds never needs
    the logger. *)
Theorem mock_setupServer_without_logger
    (tags : string) (b : MockXhr.behaviour) (this : MockXhr.mock) :
  registered (MockXhr.alfLog this) = false →
  (MockXhr.can_respond (MockXhr.server this) = true →
   MockXhr.respondWith_throws b = None →
   (MockXhr.setupServer tags b this).2 = inr ()) ∧
  (MockXhr.can_respond (MockXhr.server this) = false ∨
   is_Some (MockXhr.respondWith_throws b) →
   (MockXhr.setupServer tags b this).2 = inl (MockXhr.Native TypeError)).
Proof.
  intros Hlog. unfold MockXhr.setupServer, MockXhr.try_catch. split.
  - intros Hsrv Hreturns.
    destruct (mock_respondWith_defined _ Hsrv) as (f & Hget & Hf).
    unfold MockXhr.call_method, MockXhr.invoke.
    rewrite Hget. cbv beta iota.
    by rewrite typeof_function, Hf, Hreturns.
  - intros Hfail.
    destruct (MockXhr.can_respond (MockXhr.server this)) eqn:Hsrv.
    + destruct Hfail as [?|[v Hv]]; [done|].
      destruct (mock_respondWith_defined _ Hsrv) as (f & Hget & Hf).
      unfold MockXhr.call_method, MockXhr.invoke.
      rewrite Hget. cbv beta iota.
      by rewrite !typeof_function, Hf, Hv, Hlog.
    + rewrite mock_respondWith_missing by done.
      unfold MockXhr.invoke. by rewrite typeof_function, Hlog.
Qed.

Lemma mock_setupServer_without_logger_witness :
  registered (MockXhr.alfLog (MockXhr.Mock MockXhr.broken_server VUndefined)) =
    false ∧
  MockXhr.can_respond MockXhr.broken_server = false ∧
  (MockXhr.setupServer "[]" (MockXhr.Behaviour None None)
     (MockXhr.Mock MockXhr.broken_server VUndefined)).2 =
    inl (MockXhr.Native TypeError).
Proof.
  split; [reflexivity|]. split; [reflexivity|].
  apply (mock_setupServer_without_logger "[]" (MockXhr.Behaviour None None)
           (MockXhr.Mock MockXhr.broken_server VUndefined) eq_refl).
  left. reflexivity.
Defined.

Example mock_setupServer_registers :
  MockXhr.setupServer "[]" (MockXhr.Behaviour None None)
    (MockXhr.Mock MockXhr.fake_server (some_function 30)) =
  ([MockXhr.RespondWith "GET" "(.*)tag:tag-root(.*)" 200
      {[ "Content-Type" := "application/json;charset=UTF-8" ]} "[]"],
   inr ()).
Proof. vm_compute. reflexivity. Qed.
